(** * The Booking-service launcher ([run.py]) as a state-and-exception monad

    [run.py] is a sequential script: two [shutil.which] look-ups, an optional
    [npm install], and one child process that is waited on, with a
    [KeyboardInterrupt] handler around the last step.

    The embedding keeps the script's shape.  Everything the script asks of
    its host (the search path, the file system, the parent environment, how a
    child process behaves) is a field of a [World]; every call the script
    makes to the outside is appended to a log of [event]s; Python exceptions
    are the [Raises] outcome of a small monad.  [KeyboardInterrupt] is
    delivered where the script blocks on a child: the world decides that
    [Popen], [wait] or [terminate] raises it. *)

From Stdlib Require Import ZArith.
From stdpp Require Import base option list strings pretty gmap.

(** ** Python values the script handles *)

(** The exceptions that matter to [except KeyboardInterrupt] and
    [except Exception]: [SystemExit] and [KeyboardInterrupt] derive from
    [BaseException] only; every other class raised here derives from
    [Exception] and is named by its class. *)
Inductive exn : Type :=
  | SystemExit (code : option Z)
  | KeyboardInterrupt
  | Exception (cls : string).

Definition is_KeyboardInterrupt (e : exn) : bool :=
  match e with KeyboardInterrupt => true | _ => false end.

Definition is_Exception (e : exn) : bool :=
  match e with Exception _ => true | _ => false end.

(** A call either returns a value or raises. *)
Inductive outcome (A : Type) : Type :=
  | Returns (a : A)
  | Raises (e : exn).
Arguments Returns {A} a.
Arguments Raises {A} e.

(** The [argparse] namespace built by [parser.parse_args()]. *)
Record Namespace : Type := {
  dev : bool;
  port : Z;
  force_install : bool
}.

(** The namespace of an invocation without arguments. *)
Definition default_args : Namespace :=
  {| dev := false; port := 3001; force_install := false |}.

(** A [subprocess.Popen] object: its argument vector and [returncode]
    attribute ([None] until the child has been reaped). *)
Record PopenObj : Type := {
  popen_args : list string;
  returncode : option Z
}.

(** ** The host *)

Record World : Type := {
  (** [os.name] *)
  os_name : string;
  (** [shutil.which]: the path found for a name, if any *)
  which : string → option string;
  (** [os.path.isdir] *)
  isdir : string → bool;
  (** [os.environ] when the script starts *)
  environ : gmap string string;
  (** [Popen(args)]: [None] when the constructor returns an object *)
  spawn : list string → option exn;
  (** [Popen.wait] on the child started with these arguments *)
  wait : list string → outcome Z;
  (** [Popen.terminate] on that child: [None] when the call returns *)
  terminate : list string → option exn
}.

(** What the script does to the outside, in the order it does it.
    [EvStdout] and [EvStderr] are the script's own [print] calls. *)
Inductive event : Type :=
  | EvWhich (cmd : string)
  | EvIsdir (path : string)
  | EvStdout (text : string)
  | EvStderr (text : string)
  | EvPopen (args : list string) (env : gmap string string)
  | EvExit (args : list string) (code : Z)
  | EvKill (args : list string)
  | EvTerminate (args : list string).

Global Instance exn_eq_dec : EqDecision exn.
Proof. solve_decision. Defined.

Global Instance event_eq_dec : EqDecision event.
Proof. solve_decision. Defined.

(** The interpreter state the script can reach: the process environment,
    the local name [proc] of [main] (unbound until assigned), and the log. *)
Record State : Type := {
  os_environ : gmap string string;
  proc : option PopenObj;
  log : list event
}.

Definition emit (e : event) (s : State) : State :=
  {| os_environ := os_environ s; proc := proc s; log := log s ++ [e] |}.

Definition bind_proc (p : PopenObj) (s : State) : State :=
  {| os_environ := os_environ s; proc := Some p; log := log s |}.

(** ** The monad *)

Definition M (A : Type) : Type := State → outcome A * State.

Definition ret {A} (a : A) : M A := fun s => (Returns a, s).

Definition raise {A} (e : exn) : M A := fun s => (Raises e, s).

Definition bind {A B} (m : M A) (k : A → M B) : M B :=
  fun s =>
    match m s with
    | (Returns a, s') => k a s'
    | (Raises e, s') => (Raises e, s')
    end.

Declare Scope py_scope.
Delimit Scope py_scope with py.
Notation "x <- c1 ;; c2" := (bind c1 (fun x => c2))
  (at level 100, c1 at next level, right associativity) : py_scope.
Notation "c1 ;; c2" := (bind c1 (fun _ => c2))
  (at level 100, right associativity) : py_scope.
Open Scope py_scope.

(** [try: body except <class>: handler]: the handler runs in the state the
    body left behind, for the exceptions the clause matches; the others
    propagate. *)
Definition try_except {A} (body : M A) (catches : exn → bool)
    (handler : exn → M A) : M A :=
  fun s =>
    match body s with
    | (Raises e, s') => if catches e then handler e s' else (Raises e, s')
    | r => r
    end.

Definition tell (e : event) : M unit := fun s => (Returns tt, emit e s).

Definition print (text : string) : M unit := tell (EvStdout text).

Definition print_stderr (text : string) : M unit := tell (EvStderr text).

(** [sys.exit(code)] raises [SystemExit(code)]. *)
Definition sys_exit (code : option Z) : M unit := raise (SystemExit code).

(** The process environment as it is now. *)
Definition get_environ : M (gmap string string) :=
  fun s => (Returns (os_environ s), s).

(** [os.environ.copy()]: a fresh dict with the current contents; storing
    into the copy leaves [os.environ] as it was. *)
Definition os_environ_copy : M (gmap string string) := get_environ.

(** Reading the local name [proc]. *)
Definition get_proc : M PopenObj :=
  fun s =>
    match proc s with
    | Some p => (Returns p, s)
    | None => (Raises (Exception "UnboundLocalError"), s)
    end.

Definition set_proc (p : PopenObj) : M unit :=
  fun s => (Returns tt, bind_proc p s).

(** [str(n)] for an [int]: decimal digits, with a leading minus sign for a
    negative number. *)
Definition str (n : Z) : string := pretty n.

Definition newline : string := String (Ascii.ascii_of_nat 10) "".

Section Launcher.

Variable w : World.

(** [exe] (run.py, lines 9-10). *)
Definition exe (name : string) : string :=
  if decide (os_name w = "nt") then name +:+ ".cmd" else name.

Definition shutil_which (cmd : string) : M (option string) :=
  tell (EvWhich cmd) ;; ret (which w cmd).

(** [check_cmd] (run.py, lines 12-13). *)
Definition check_cmd (cmd : string) : M bool :=
  found <- shutil_which cmd ;;
  ret (match found with Some _ => true | None => false end).

Definition os_path_isdir (path : string) : M bool :=
  tell (EvIsdir path) ;; ret (isdir w path).

(** [subprocess.Popen(args, env=env)]: with [env=None] the child gets the
    process environment as it is at the call. *)
Definition subprocess_Popen (args : list string)
    (env : option (gmap string string)) : M PopenObj :=
  cur <- get_environ ;;
  tell (EvPopen args (default cur env)) ;;
  match spawn w args with
  | None => ret {| popen_args := args; returncode := None |}
  | Some e => raise e
  end.

(** [p.wait()]: blocks until the child is reaped and returns its code. *)
Definition Popen_wait (p : PopenObj) : M Z :=
  match wait w (popen_args p) with
  | Returns rc => tell (EvExit (popen_args p) rc) ;; ret rc
  | Raises e => raise e
  end.

Definition Popen_terminate (p : PopenObj) : M unit :=
  tell (EvTerminate (popen_args p)) ;;
  match terminate w (popen_args p) with
  | None => ret tt
  | Some e => raise e
  end.

(** [subprocess.call(args)]: start the child, wait for it, return its
    code; if waiting raises, kill the child and re-raise. *)
Definition subprocess_call (args : list string) : M Z :=
  p <- subprocess_Popen args None ;;
  try_except (Popen_wait p) (fun _ => true)
    (fun e => tell (EvKill (popen_args p)) ;; raise e).

(** [proc.wait()] on the local [proc]: the object's [returncode] is set. *)
Definition proc_wait : M Z :=
  p <- get_proc ;;
  rc <- Popen_wait p ;;
  set_proc {| popen_args := popen_args p; returncode := Some rc |} ;;
  ret rc.

Definition install_cmd : list string := [exe "npm"; "install"].

Definition service_cmd (args : Namespace) : list string :=
  if dev args then [exe "npm"; "run"; "dev"] else [exe "npm"; "start"].

Definition status_line (args : Namespace) : string :=
  "Starting Booking service on port " +:+ str (port args) +:+ " (" +:+
  (if dev args then "dev" else "start") +:+ ")...".

(** [proc.terminate()] (run.py, line 48): the name is read first. *)
Definition proc_terminate : M unit :=
  p <- get_proc ;; Popen_terminate p.

(** The [except KeyboardInterrupt] suite (run.py, lines 46-50). *)
Definition on_interrupt : M unit :=
  print (newline +:+ "Stopping...") ;;
  try_except proc_terminate is_Exception (fun _ => ret tt).

(** [main] (run.py, lines 15-50), after [parse_args] has returned. *)
Definition main (args : Namespace) : M unit :=
  found <- check_cmd "node" ;;
  (if negb found then
     print_stderr
       "ERROR: Node.js not found in PATH. Install Node 18+ and try again." ;;
     sys_exit (Some 1%Z)
   else ret tt) ;;
  found <- check_cmd (exe "npm") ;;
  (if negb found then
     print_stderr "ERROR: npm not found in PATH." ;;
     sys_exit (Some 1%Z)
   else ret tt) ;;
  need_install <-
    (if force_install args then ret true
     else (d <- os_path_isdir "node_modules" ;; ret (negb d))) ;;
  (if need_install then
     print "Installing dependencies (npm install)..." ;;
     code <- subprocess_call install_cmd ;;
     if negb (code =? 0)%Z then sys_exit (Some code) else ret tt
   else ret tt) ;;
  env <- os_environ_copy ;;
  let env := <["PORT" := str (port args)]> env in
  let cmd := service_cmd args in
  print (status_line args) ;;
  try_except
    (p <- subprocess_Popen cmd (Some env) ;;
     set_proc p ;;
     proc_wait ;;
     p <- get_proc ;;
     sys_exit (returncode p))
    is_KeyboardInterrupt
    (fun _ => on_interrupt).

Definition init : State :=
  {| os_environ := environ w; proc := None; log := [] |}.

(** One run of the script: how [main()] ended and the final state. *)
Definition run (args : Namespace) : outcome unit * State :=
  main args init.

Definition trace (args : Namespace) : list event := log (run args).2.

End Launcher.

(** How the process ends once [main()] is over: with an exit status, or
    with the traceback of an exception nobody caught.  [StatusUnspecified]
    stands for a [sys.exit(n)] whose status this development leaves open. *)
Inductive termination : Type :=
  | ExitStatus (n : Z)
  | Traceback (e : exn)
  | StatusUnspecified (n : Z).

(** The status a parent observes after [sys.exit(n)].  The interpreter hands
    [(int) n] to C's [exit]: a POSIX parent gets the low eight bits of it, a
    Windows parent the whole 32-bit word.  For [n] outside the range of a C
    [int] the result depends on the width of C's [long] and is left open. *)
Definition exit_code (os : string) (n : Z) : termination :=
  if bool_decide (- 2 ^ 31 ≤ n < 2 ^ 31)%Z then
    ExitStatus (if decide (os = "nt") then n `mod` 2 ^ 32 else n `mod` 256)%Z
  else StatusUnspecified n.

(** Status 0 if [main()] returned or raised [SystemExit(None)], the status of
    [sys.exit(n)] if it raised [SystemExit(n)], a traceback otherwise. *)
Definition exit_status (os : string) (r : outcome unit) : termination :=
  match r with
  | Returns _ => ExitStatus 0
  | Raises (SystemExit None) => ExitStatus 0
  | Raises (SystemExit (Some n)) => exit_code os n
  | Raises e => Traceback e
  end.

Definition launcher_status (w : World) (args : Namespace) : termination :=
  exit_status (os_name w) (run w args).1.

(** ** Reading the log *)

(** The argument vectors handed to [Popen], in order. *)
Definition popens (t : list event) : list (list string) :=
  omap (fun e => match e with EvPopen a _ => Some a | _ => None end) t.

(** The names looked up on the search path, in order. *)
Definition lookups (t : list event) : list string :=
  omap (fun e => match e with EvWhich c => Some c | _ => None end) t.

(** The [terminate] calls, in order. *)
Definition terminations (t : list event) : list (list string) :=
  omap (fun e => match e with EvTerminate a => Some a | _ => None end) t.

(** The directories probed with [os.path.isdir], in order. *)
Definition dir_checks (t : list event) : list string :=
  omap (fun e => match e with EvIsdir d => Some d | _ => None end) t.

(** ** Some hosts *)

(** A host on which both tools are found and every child starts; the rest
    is given: the platform, whether [node_modules] is there, the code
    [npm install] exits with, and how the service's [Popen], [wait] and
    [terminate] end. *)
Definition host (os : string) (modules : bool) (install_code : Z)
    (svc_spawn : option exn) (svc_wait : outcome Z)
    (svc_terminate : option exn) : World :=
  {| os_name := os;
     which := fun c => Some ("/usr/local/bin/" +:+ c);
     isdir := fun d => if decide (d = "node_modules") then modules else false;
     environ := <["PORT" := "9999"]> (<["HOME" := "/home/dev"]> ∅);
     spawn := fun a => match a with [_; "install"] => None | _ => svc_spawn end;
     wait := fun a =>
       match a with [_; "install"] => Returns install_code | _ => svc_wait end;
     terminate := fun _ => svc_terminate |}.

(** A fresh checkout on Linux: the install succeeds, the service exits 7. *)
Definition fresh_checkout : World :=
  host "posix" false 0 None (Returns 7%Z) None.

(** Dependencies in place; the service exits 3. *)
Definition installed_host : World :=
  host "posix" true 0 None (Returns 3%Z) None.

(** [npm install] exits with 2. *)
Definition failing_install : World :=
  host "posix" false 2 None (Returns 0%Z) None.

(** Windows, dependencies in place; Ctrl-C while the service runs, and the
    child cannot be terminated. *)
Definition windows_host : World :=
  {| os_name := "nt";
     which := fun c =>
       if decide (c = "node") then Some "C:\nodejs\node.EXE"
       else if decide (c = "npm.cmd") then Some "C:\nodejs\npm.cmd"
       else None;
     isdir := fun d => bool_decide (d = "node_modules");
     environ := <["PORT" := "9999"]> (<["USERNAME" := "dev"]> ∅);
     spawn := fun _ => None;
     wait := fun _ => Raises KeyboardInterrupt;
     terminate := fun _ => Some (Exception "PermissionError") |}.

(** Ctrl-C while the service is being started. *)
Definition interrupted_spawn : World :=
  host "posix" true 0 (Some KeyboardInterrupt) (Returns 0%Z) None.

(** A host without Node.js. *)
Definition no_runtime : World :=
  {| os_name := "posix";
     which := fun _ => None;
     isdir := fun _ => false;
     environ := ∅;
     spawn := fun _ => None;
     wait := fun _ => Returns 0%Z;
     terminate := fun _ => None |}.

(** A host with Node.js but without npm. *)
Definition no_package_manager : World :=
  {| os_name := "posix";
     which := fun c => if decide (c = "node") then Some "/usr/bin/node" else None;
     isdir := fun _ => false;
     environ := ∅;
     spawn := fun _ => None;
     wait := fun _ => Returns 0%Z;
     terminate := fun _ => None |}.

(** Ctrl-C while [npm install] runs. *)
Definition interrupted_install : World :=
  {| os_name := "posix";
     which := fun c => Some ("/usr/bin/" +:+ c);
     isdir := fun _ => false;
     environ := <["HOME" := "/home/dev"]> ∅;
     spawn := fun _ => None;
     wait := fun _ => Raises KeyboardInterrupt;
     terminate := fun _ => None |}.

(** [npm] disappears between the look-up and the start of the service. *)
Definition vanished_npm : World :=
  host "posix" true 0 (Some (Exception "FileNotFoundError")) (Returns 0%Z) None.

(** Ctrl-C while the service runs, and again during [terminate]. *)
Definition second_interrupt : World :=
  host "posix" true 0 None (Raises KeyboardInterrupt) (Some KeyboardInterrupt).

(** The service is killed by SIGTERM: [wait] reports -15. *)
Definition killed_service : World :=
  host "posix" true 0 None (Returns (-15)%Z) None.

(** ** Proof machinery *)

(** Unfold the monad and the script down to the host's answers. *)
Ltac unfold_py :=
  cbv [run trace launcher_status main on_interrupt proc_terminate proc_wait
       subprocess_call subprocess_Popen Popen_wait Popen_terminate check_cmd
       shutil_which os_path_isdir os_environ_copy get_environ get_proc
       set_proc sys_exit print print_stderr tell try_except bind ret raise
       emit bind_proc init log proc os_environ popen_args returncode default
       from_option id negb fst snd app is_KeyboardInterrupt is_Exception].

(** Ask the host one more question. *)
Ltac step :=
  unfold_py;
  match goal with
  | H : which ?w ?c = _ |- context [which ?w ?c] => rewrite H
  | H : spawn ?w ?c = _ |- context [spawn ?w ?c] => rewrite H
  | H : wait ?w ?c = _ |- context [wait ?w ?c] => rewrite H
  | |- context [which ?w ?c] => destruct (which w c) eqn:?
  | |- context [force_install ?a] => destruct (force_install a) eqn:?
  | |- context [isdir ?w ?c] => destruct (isdir w c) eqn:?
  | |- context [spawn ?w ?c] => destruct (spawn w c) eqn:?
  | |- context [wait ?w ?c] => destruct (wait w c) eqn:?
  | |- context [terminate ?w ?c] => destruct (terminate w c) eqn:?
  | |- context [Z.eqb ?a ?b] => destruct (Z.eqb_spec a b)
  | |- context [match ?x with _ => _ end] =>
      is_var x; match type of x with exn => destruct x end
  end.

Ltac run_cases := repeat step; unfold_py.

(** Membership in a log that has been computed. *)
Ltac in_log H :=
  repeat (apply elem_of_cons in H as [H|H]; [try discriminate H|]);
  try (apply elem_of_nil in H; contradiction).

(** A position in a log that has been computed. *)
Ltac at_index H i :=
  repeat (destruct i as [|i]; simpl in H; try discriminate H).

Ltac member :=
  match goal with
  | |- _ ∈ _ =>
      solve [ repeat first [ by apply list_elem_of_here
                           | apply list_elem_of_further ] ]
  | |- _ ∉ _ => let H := fresh in intros H; in_log H; congruence
  end.

(** Run the script once, along every answer the host can give. *)
Ltac run_once w args :=
  let r := fresh "r" in
  let s := fresh "s" in
  let E := fresh "Hrun" in
  unfold trace, launcher_status;
  destruct (run w args) as [r s] eqn:E; revert E;
  repeat step; unfold_py;
  intros E; injection E as <- <-;
  cbn [log proc os_environ fst snd exit_status popens lookups terminations
       omap list_omap].

Ltac ends_with :=
  solve [ repeat first [ reflexivity | apply suffix_cons_r ] ].

(** ** Facts about the pieces *)

Lemma install_ne_service w args : install_cmd w ≠ service_cmd w args.
Proof. unfold install_cmd, service_cmd. destruct (dev args); discriminate. Qed.

Lemma exe_windows w name : os_name w = "nt" → exe w name = name +:+ ".cmd".
Proof. intros H. unfold exe. by rewrite decide_True. Qed.

Lemma exe_other w name : os_name w ≠ "nt" → exe w name = name.
Proof. intros H. unfold exe. by rewrite decide_False. Qed.

Lemma str_inj (n m : Z) : str n = str m → n = m.
Proof. unfold str. apply (inj pretty). Qed.

Example str_default_port : str 3001 = "3001".
Proof. reflexivity. Qed.

Example str_negative : str (-5) = "-5".
Proof. reflexivity. Qed.

Example str_zero : str 0 = "0".
Proof. reflexivity. Qed.

(** A status between 0 and 255 reaches the parent as it is, on every
    platform. *)
Lemma exit_code_byte os n : (0 ≤ n ≤ 255)%Z → exit_code os n = ExitStatus n.
Proof.
  intros Hn. unfold exit_code.
  rewrite bool_decide_true by lia.
  destruct (decide (os = "nt")); f_equal; apply Z.mod_small; lia.
Qed.

(** Off Windows the parent sees the argument of [sys.exit] modulo 256. *)
Lemma exit_code_posix os n :
  os ≠ "nt" → (- 2 ^ 31 ≤ n < 2 ^ 31)%Z →
  exit_code os n = ExitStatus (n `mod` 256).
Proof.
  intros Hos Hn. unfold exit_code.
  rewrite bool_decide_true by lia. by rewrite decide_False.
Qed.

Example exit_code_sigkill : exit_code "posix" (-9) = ExitStatus 247.
Proof. reflexivity. Qed.

Example exit_code_sigterm : exit_code "posix" (-15) = ExitStatus 241.
Proof. reflexivity. Qed.

(** Reading an unbound [proc] raises, and the log is left alone. *)
Lemma proc_terminate_unbound w s :
  proc s = None →
  proc_terminate w s = (Raises (Exception "UnboundLocalError"), s).
Proof. intros H. unfold proc_terminate, bind, get_proc. by rewrite H. Qed.

(** The script never stores into [os.environ]. *)
Lemma environ_untouched w args : os_environ (run w args).2 = environ w.
Proof. run_cases; reflexivity. Qed.

(** A failed install ends [main] in [sys.exit(code)], with the installer as
    the only child of the run. *)
Lemma install_failure_raises w args C :
  EvExit (install_cmd w) C ∈ trace w args →
  C ≠ 0%Z →
  (run w args).1 = Raises (SystemExit (Some C))
  ∧ popens (trace w args) = [install_cmd w].
Proof.
  intros Hin HC. revert Hin.
  pose proof (install_ne_service w args) as Hne.
  run_once w args; intros Hin; in_log Hin; simplify_eq; done.
Qed.

(** A service that has been waited for ends [main] in
    [sys.exit(proc.returncode)]. *)
Lemma service_exit_raises w args N :
  EvExit (service_cmd w args) N ∈ trace w args →
  (run w args).1 = Raises (SystemExit (Some N)).
Proof.
  pose proof (install_ne_service w args) as Hne.
  run_once w args; intros Hin; in_log Hin; simplify_eq; done.
Qed.

(** ** The install step *)

(** C1: once both tools have been found, [npm install] is started exactly
    when [--force-install] was given or [node_modules] is not a directory.
    Without the directory it is started, and before the service, whatever
    the flag; with the directory and without the flag it is not started;
    with the flag it is started. *)
Theorem install_step_runs_iff_needed (w : World) (args : Namespace) :
  is_Some (which w "node") →
  is_Some (which w (exe w "npm")) →
  (install_cmd w ∈ popens (trace w args) ↔
     force_install args = true ∨ isdir w "node_modules" = false)
  ∧ (isdir w "node_modules" = false →
       install_cmd w ∈ popens (trace w args)
       ∧ ∀ i env,
           trace w args !! i = Some (EvPopen (service_cmd w args) env) →
           ∃ j, j < i
                ∧ trace w args !! j
                    = Some (EvPopen (install_cmd w) (environ w)))
  ∧ (isdir w "node_modules" = true → force_install args = false →
       install_cmd w ∉ popens (trace w args))
  ∧ (force_install args = true → install_cmd w ∈ popens (trace w args)).
Proof.
  intros [node Hnode] [npm Hnpm].
  pose proof (install_ne_service w args) as Hne.
  run_once w args; simplify_eq.
  all: repeat split; try discriminate; try (intros; member).
  all: try (intros [?|?]; discriminate).
  all: try (intros _; auto; fail).
  all: try (intros Hin; exfalso; in_log Hin; congruence).
  all: intros i env Hix; at_index Hix i; simplify_eq.
  all: first [ by exists 3; split; [lia|] | by exists 4; split; [lia|] ].
Qed.

Lemma install_step_runs_iff_needed_witness :
  is_Some (which fresh_checkout "node")
  ∧ is_Some (which fresh_checkout (exe fresh_checkout "npm"))
  ∧ (install_cmd fresh_checkout ∈ popens (trace fresh_checkout default_args) ↔
       force_install default_args = true
       ∨ isdir fresh_checkout "node_modules" = false).
Proof.
  assert (H1 : is_Some (which fresh_checkout "node")) by (by eexists).
  assert (H2 : is_Some (which fresh_checkout (exe fresh_checkout "npm")))
    by (by eexists).
  split; [exact H1|]. split; [exact H2|].
  exact (proj1 (install_step_runs_iff_needed fresh_checkout default_args H1 H2)).
Defined.

(** C2: when [npm install] exits with a code [C] other than 0, the service
    is not started (the installer is the only child of the run) and the
    script ends through [sys.exit(C)]; the launcher's own exit status is
    then [C] itself for every exit code a process can report, 0 to 255.
    (A [C] outside that range, such as the negative [returncode] of an
    installer killed by a signal, reaches the parent as [exit_code] has
    it.) *)
Theorem install_failure_exits_with_code (w : World) (args : Namespace) (C : Z) :
  EvExit (install_cmd w) C ∈ trace w args →
  C ≠ 0%Z →
  (run w args).1 = Raises (SystemExit (Some C))
  ∧ popens (trace w args) = [install_cmd w]
  ∧ (service_cmd w args ∉ popens (trace w args))
  ∧ launcher_status w args = exit_code (os_name w) C
  ∧ ((0 ≤ C ≤ 255)%Z → launcher_status w args = ExitStatus C).
Proof.
  intros Hin HC.
  destruct (install_failure_raises w args C Hin HC) as [Hrun Hpop].
  pose proof (install_ne_service w args) as Hne.
  assert (launcher_status w args = exit_code (os_name w) C) as Hst
    by (unfold launcher_status; by rewrite Hrun).
  split; [done|]. split; [done|]. split; [|split; [done|]].
  - rewrite Hpop. intros Hsvc. in_log Hsvc. congruence.
  - intros Hbyte. rewrite Hst. by apply exit_code_byte.
Qed.

Lemma install_failure_exits_with_code_witness :
  EvExit (install_cmd failing_install) 2
    ∈ trace failing_install default_args
  ∧ 2%Z ≠ 0%Z
  ∧ (0 ≤ 2 ≤ 255)%Z
  ∧ launcher_status failing_install default_args = ExitStatus 2
  ∧ popens (trace failing_install default_args) = [install_cmd failing_install]
  ∧ service_cmd failing_install default_args
      ∉ popens (trace failing_install default_args).
Proof.
  assert (H1 : EvExit (install_cmd failing_install) 2
                 ∈ trace failing_install default_args)
    by (apply (bool_decide_unpack _); vm_compute; exact I).
  assert (H2 : 2%Z ≠ 0%Z) by lia.
  assert (H3 : (0 ≤ 2 ≤ 255)%Z) by lia.
  pose proof (install_failure_exits_with_code failing_install default_args 2
                H1 H2) as H.
  split; [exact H1|]. split; [exact H2|]. split; [exact H3|].
  split; [exact (proj2 (proj2 (proj2 (proj2 H))) H3)|].
  split; [exact (proj1 (proj2 H)) | exact (proj1 (proj2 (proj2 H)))].
Defined.

(** C8: in a run in which the install step is triggered, a service child
    is started only after the installer has been started and has been
    reaped with code 0; the installer and the service are the only two
    children, so the two never run side by side and the service never
    comes first. *)
Theorem install_precedes_service (w : World) (args : Namespace) (i : nat)
    (env : gmap string string) :
  trace w args !! i = Some (EvPopen (service_cmd w args) env) →
  force_install args = true ∨ isdir w "node_modules" = false →
  ∃ j k,
    j < k < i
    ∧ trace w args !! j = Some (EvPopen (install_cmd w) (environ w))
    ∧ trace w args !! k = Some (EvExit (install_cmd w) 0)
    ∧ ∀ i' a e, trace w args !! i' = Some (EvPopen a e) → i' = j ∨ i' = i.
Proof.
  intros Hix Hneed. revert Hix.
  pose proof (install_ne_service w args) as Hne.
  run_once w args; intros Hix; at_index Hix i; simplify_eq.
  all: try (destruct Hneed; discriminate).
  all: first
    [ exists 3, 4; (split; [lia|]); (split; [done|]); (split; [done|])
    | exists 4, 5; (split; [lia|]); (split; [done|]); (split; [done|]) ].
  all: intros i' a e' Hi'; at_index Hi' i'; auto.
Qed.

Lemma install_precedes_service_witness :
  trace fresh_checkout default_args !! 7
    = Some (EvPopen (service_cmd fresh_checkout default_args)
              (<["PORT" := "3001"]> (environ fresh_checkout)))
  ∧ (force_install default_args = true
     ∨ isdir fresh_checkout "node_modules" = false)
  ∧ ∃ j k,
      j < k < 7
      ∧ trace fresh_checkout default_args !! j
          = Some (EvPopen (install_cmd fresh_checkout) (environ fresh_checkout))
      ∧ trace fresh_checkout default_args !! k
          = Some (EvExit (install_cmd fresh_checkout) 0)
      ∧ ∀ i' a e,
          trace fresh_checkout default_args !! i' = Some (EvPopen a e) →
          i' = j ∨ i' = 7.
Proof.
  assert (H1 : trace fresh_checkout default_args !! 7
                 = Some (EvPopen (service_cmd fresh_checkout default_args)
                           (<["PORT" := "3001"]> (environ fresh_checkout))))
    by (vm_compute; reflexivity).
  assert (H2 : force_install default_args = true
               ∨ isdir fresh_checkout "node_modules" = false)
    by (right; reflexivity).
  split; [exact H1|]. split; [exact H2|].
  exact (install_precedes_service fresh_checkout default_args 7 _ H1 H2).
Defined.

(** C9: the installer is started with the process environment as the
    script found it, so its [PORT] is the parent's; the script never stores
    into [os.environ], and the copy that carries the new [PORT] goes to the
    service only. *)
Theorem installer_environment_is_inherited (w : World) (args : Namespace)
    (env : gmap string string) :
  EvPopen (install_cmd w) env ∈ trace w args →
  env = environ w
  ∧ env !! "PORT" = environ w !! "PORT"
  ∧ os_environ (run w args).2 = environ w.
Proof.
  intros Hin.
  assert (env = environ w) as ->.
  { revert Hin. pose proof (install_ne_service w args) as Hne.
    run_once w args; intros Hin; in_log Hin; simplify_eq; done. }
  split; [done|]. split; [done|]. apply environ_untouched.
Qed.

Lemma installer_environment_is_inherited_witness :
  EvPopen (install_cmd fresh_checkout) (environ fresh_checkout)
    ∈ trace fresh_checkout default_args
  ∧ environ fresh_checkout !! "PORT" = Some "9999"
  ∧ environ fresh_checkout = environ fresh_checkout
  ∧ environ fresh_checkout !! "PORT" = environ fresh_checkout !! "PORT"
  ∧ os_environ (run fresh_checkout default_args).2 = environ fresh_checkout.
Proof.
  assert (H1 : EvPopen (install_cmd fresh_checkout) (environ fresh_checkout)
                 ∈ trace fresh_checkout default_args)
    by (apply (bool_decide_unpack _); vm_compute; exact I).
  split; [exact H1|]. split; [by vm_compute|].
  exact (installer_environment_is_inherited fresh_checkout default_args _ H1).
Defined.

(** ** The service step *)

(** C4: the environment handed to the service child is the parent's
    environment with [PORT] set to [str(args.port)]: [PORT] reads as that
    string and every other name reads as in the parent.  This holds for
    every integer [--port] accepts. *)
Theorem service_environment_sets_port (w : World) (args : Namespace)
    (env : gmap string string) :
  EvPopen (service_cmd w args) env ∈ trace w args →
  env = <["PORT" := str (port args)]> (environ w)
  ∧ env !! "PORT" = Some (str (port args))
  ∧ ∀ k, k ≠ "PORT" → env !! k = environ w !! k.
Proof.
  intros Hin.
  assert (env = <["PORT" := str (port args)]> (environ w)) as ->.
  { revert Hin. pose proof (install_ne_service w args) as Hne.
    run_once w args; intros Hin; in_log Hin; simplify_eq; done. }
  split; [done|]. split.
  - apply lookup_insert_eq.
  - intros k Hk. by apply lookup_insert_ne.
Qed.

Lemma service_environment_sets_port_witness :
  EvPopen (service_cmd installed_host default_args)
      (<["PORT" := "3001"]> (environ installed_host))
    ∈ trace installed_host default_args
  ∧ <["PORT" := "3001"]> (environ installed_host)
      = <["PORT" := str (port default_args)]> (environ installed_host)
  ∧ <["PORT" := "3001"]> (environ installed_host) !! "PORT"
      = Some (str (port default_args))
  ∧ ∀ k, k ≠ "PORT" →
      <["PORT" := "3001"]> (environ installed_host) !! k
        = environ installed_host !! k.
Proof.
  assert (H1 : EvPopen (service_cmd installed_host default_args)
                   (<["PORT" := "3001"]> (environ installed_host))
                 ∈ trace installed_host default_args)
    by (apply (bool_decide_unpack _); vm_compute; exact I).
  split; [exact H1|].
  exact (service_environment_sets_port installed_host default_args _ H1).
Defined.

(** C3: when the service child has been waited for and its code is [N],
    the script ends through [sys.exit(N)]; the launcher's own exit status
    is then [N] itself for every exit code a process can report, 0 to 255.
    (An [N] outside that range, such as the negative [returncode] of a
    service killed by a signal, reaches the parent as [exit_code] has
    it.) *)
Theorem service_exit_code_propagates (w : World) (args : Namespace) (N : Z) :
  EvExit (service_cmd w args) N ∈ trace w args →
  (run w args).1 = Raises (SystemExit (Some N))
  ∧ launcher_status w args = exit_code (os_name w) N
  ∧ ((0 ≤ N ≤ 255)%Z → launcher_status w args = ExitStatus N).
Proof.
  intros Hin.
  pose proof (service_exit_raises w args N Hin) as Hrun.
  assert (launcher_status w args = exit_code (os_name w) N) as Hst
    by (unfold launcher_status; by rewrite Hrun).
  split; [done|]. split; [done|].
  intros Hbyte. rewrite Hst. by apply exit_code_byte.
Qed.

Lemma service_exit_code_propagates_witness :
  EvExit (service_cmd fresh_checkout default_args) 7
    ∈ trace fresh_checkout default_args
  ∧ (0 ≤ 7 ≤ 255)%Z
  ∧ launcher_status fresh_checkout default_args = ExitStatus 7.
Proof.
  assert (H1 : EvExit (service_cmd fresh_checkout default_args) 7
                 ∈ trace fresh_checkout default_args)
    by (apply (bool_decide_unpack _); vm_compute; exact I).
  assert (H2 : (0 ≤ 7 ≤ 255)%Z) by lia.
  split; [exact H1|]. split; [exact H2|].
  exact (proj2 (proj2 (service_exit_code_propagates fresh_checkout
                         default_args 7 H1)) H2).
Defined.

(** ** The toolchain checks *)

(** C5: when [node] is not found, or the package manager is not found, the
    script writes one line to [stderr], starts no child at all, and ends
    through [sys.exit(1)]. *)
Theorem missing_toolchain_exits_1 (w : World) (args : Namespace) :
  which w "node" = None ∨ which w (exe w "npm") = None →
  launcher_status w args = ExitStatus 1
  ∧ popens (trace w args) = []
  ∧ (which w "node" = None →
       trace w args =
         [EvWhich "node";
          EvStderr
            "ERROR: Node.js not found in PATH. Install Node 18+ and try again."])
  ∧ (is_Some (which w "node") →
       trace w args =
         [EvWhich "node"; EvWhich (exe w "npm");
          EvStderr "ERROR: npm not found in PATH."]).
Proof.
  intros Hmissing.
  destruct (which w "node") as [node|] eqn:Hnode.
  - destruct Hmissing as [|Hnpm]; [done|].
    unfold_py. rewrite Hnode. unfold_py. rewrite Hnpm. unfold_py.
    repeat split; try done. by apply exit_code_byte.
  - unfold_py. rewrite Hnode. unfold_py.
    repeat split; try done. by apply exit_code_byte.
Qed.

Lemma missing_toolchain_exits_1_witness :
  (which no_runtime "node" = None
   ∨ which no_runtime (exe no_runtime "npm") = None)
  ∧ launcher_status no_runtime default_args = ExitStatus 1
  ∧ popens (trace no_runtime default_args) = [].
Proof.
  assert (H1 : which no_runtime "node" = None
               ∨ which no_runtime (exe no_runtime "npm") = None)
    by (left; reflexivity).
  split; [exact H1|].
  pose proof (missing_toolchain_exits_1 no_runtime default_args H1) as H.
  split; [exact (proj1 H) | exact (proj1 (proj2 H))].
Defined.

(** The same on a host that has Node.js but no npm. *)
Example missing_package_manager :
  launcher_status no_package_manager default_args = ExitStatus 1
  ∧ trace no_package_manager default_args =
      [EvWhich "node"; EvWhich "npm"; EvStderr "ERROR: npm not found in PATH."].
Proof. split; reflexivity. Qed.

(** C6, as the script has it: the runtime is looked up under the bare name
    [node] on every platform; the platform suffix goes to the package
    manager only, which is looked up as [npm.cmd] on Windows and as [npm]
    elsewhere. *)
Theorem toolchain_lookup_names (w : World) (args : Namespace) :
  lookups (trace w args) =
    match which w "node" with
    | Some _ => ["node"; exe w "npm"]
    | None => ["node"]
    end
  ∧ (os_name w = "nt" → exe w "npm" = "npm.cmd")
  ∧ (os_name w ≠ "nt" → exe w "npm" = "npm").
Proof.
  split; [|split].
  - run_once w args; reflexivity.
  - intros H. by rewrite exe_windows.
  - intros H. by rewrite exe_other.
Qed.

Lemma toolchain_lookup_names_witness :
  os_name windows_host = "nt"
  ∧ lookups (trace windows_host default_args) = ["node"; exe windows_host "npm"]
  ∧ exe windows_host "npm" = "npm.cmd".
Proof.
  assert (H1 : os_name windows_host = "nt") by reflexivity.
  pose proof (toolchain_lookup_names windows_host default_args) as H.
  split; [exact H1|].
  split; [exact (proj1 H) | exact (proj1 (proj2 H) H1)].
Defined.

(** C6 with the suffix on both names does not hold: on Windows the script
    looks up [node], not [node.cmd], next to [npm.cmd]. *)
Lemma lookup_names_counterexample :
  os_name windows_host = "nt"
  ∧ lookups (trace windows_host default_args) = ["node"; "npm.cmd"]
  ∧ lookups (trace windows_host default_args)
      ≠ [exe windows_host "node"; exe windows_host "npm"].
Proof.
  split; [reflexivity|]. split; [reflexivity|]. vm_compute. discriminate.
Qed.

(** ** Interrupts *)

(** C7: when the service child has been started and [KeyboardInterrupt]
    arrives while the script waits for it, the script prints the notice,
    calls [proc.terminate()], and [main] returns, so that the process ends
    with status 0; this is so whether [terminate] returns or fails with an
    error (an exception derived from [Exception]). *)
Theorem interrupt_while_waiting (w : World) (args : Namespace)
    (env : gmap string string) :
  EvPopen (service_cmd w args) env ∈ trace w args →
  spawn w (service_cmd w args) = None →
  wait w (service_cmd w args) = Raises KeyboardInterrupt →
  (∀ e, terminate w (service_cmd w args) = Some e → is_Exception e = true) →
  (run w args).1 = Returns tt
  ∧ launcher_status w args = ExitStatus 0
  ∧ [EvPopen (service_cmd w args) env;
     EvStdout (newline +:+ "Stopping...");
     EvTerminate (service_cmd w args)] `suffix_of` trace w args.
Proof.
  intros Hin Hspawn Hwait Hterm. revert Hin.
  pose proof (install_ne_service w args) as Hne.
  run_once w args; intros Hin; in_log Hin; simplify_eq.
  all: try (specialize (Hterm _ eq_refl); discriminate Hterm).
  all: repeat split; try done; ends_with.
Qed.

Lemma interrupt_while_waiting_witness :
  EvPopen (service_cmd windows_host default_args)
      (<["PORT" := "3001"]> (environ windows_host))
    ∈ trace windows_host default_args
  ∧ spawn windows_host (service_cmd windows_host default_args) = None
  ∧ wait windows_host (service_cmd windows_host default_args)
      = Raises KeyboardInterrupt
  ∧ terminate windows_host (service_cmd windows_host default_args)
      = Some (Exception "PermissionError")
  ∧ (run windows_host default_args).1 = Returns tt
  ∧ launcher_status windows_host default_args = ExitStatus 0
  ∧ [EvPopen (service_cmd windows_host default_args)
       (<["PORT" := "3001"]> (environ windows_host));
     EvStdout (newline +:+ "Stopping...");
     EvTerminate (service_cmd windows_host default_args)]
      `suffix_of` trace windows_host default_args.
Proof.
  assert (H1 : EvPopen (service_cmd windows_host default_args)
                   (<["PORT" := "3001"]> (environ windows_host))
                 ∈ trace windows_host default_args)
    by (apply (bool_decide_unpack _); vm_compute; exact I).
  assert (H2 : spawn windows_host (service_cmd windows_host default_args)
               = None) by reflexivity.
  assert (H3 : wait windows_host (service_cmd windows_host default_args)
               = Raises KeyboardInterrupt) by reflexivity.
  assert (H4 : ∀ e,
             terminate windows_host (service_cmd windows_host default_args)
               = Some e → is_Exception e = true)
    by (intros e [= <-]; reflexivity).
  split; [exact H1|]. split; [exact H2|]. split; [exact H3|].
  split; [reflexivity|].
  exact (interrupt_while_waiting windows_host default_args _ H1 H2 H3 H4).
Defined.

(** C10: when [KeyboardInterrupt] arrives while the service child is being
    started, after the status line and before [proc] is bound, the handler
    prints the notice and reads [proc], which raises [UnboundLocalError];
    that is an [Exception], so the inner handler swallows it, no
    [terminate] call is made, and [main] returns: the process ends with
    status 0 and nothing propagates. *)
Theorem interrupt_while_spawning (w : World) (args : Namespace)
    (env : gmap string string) :
  EvPopen (service_cmd w args) env ∈ trace w args →
  spawn w (service_cmd w args) = Some KeyboardInterrupt →
  (run w args).1 = Returns tt
  ∧ launcher_status w args = ExitStatus 0
  ∧ proc (run w args).2 = None
  ∧ proc_terminate w (run w args).2
      = (Raises (Exception "UnboundLocalError"), (run w args).2)
  ∧ is_Exception (Exception "UnboundLocalError") = true
  ∧ terminations (trace w args) = []
  ∧ [EvStdout (status_line args); EvPopen (service_cmd w args) env;
     EvStdout (newline +:+ "Stopping...")] `suffix_of` trace w args.
Proof.
  intros Hin Hspawn. revert Hin.
  pose proof (install_ne_service w args) as Hne.
  run_once w args; intros Hin; in_log Hin; simplify_eq.
  all: repeat split; try done; ends_with.
Qed.

Lemma interrupt_while_spawning_witness :
  EvPopen (service_cmd interrupted_spawn default_args)
      (<["PORT" := "3001"]> (environ interrupted_spawn))
    ∈ trace interrupted_spawn default_args
  ∧ spawn interrupted_spawn (service_cmd interrupted_spawn default_args)
      = Some KeyboardInterrupt
  ∧ (run interrupted_spawn default_args).1 = Returns tt
  ∧ launcher_status interrupted_spawn default_args = ExitStatus 0
  ∧ proc (run interrupted_spawn default_args).2 = None.
Proof.
  assert (H1 : EvPopen (service_cmd interrupted_spawn default_args)
                   (<["PORT" := "3001"]> (environ interrupted_spawn))
                 ∈ trace interrupted_spawn default_args)
    by (apply (bool_decide_unpack _); vm_compute; exact I).
  assert (H2 : spawn interrupted_spawn
                 (service_cmd interrupted_spawn default_args)
               = Some KeyboardInterrupt) by reflexivity.
  split; [exact H1|]. split; [exact H2|].
  pose proof (interrupt_while_spawning interrupted_spawn default_args _ H1 H2)
    as H.
  split; [exact (proj1 H)|].
  split; [exact (proj1 (proj2 H)) | exact (proj1 (proj2 (proj2 H)))].
Defined.

(** ** Two whole runs *)

(** No [node_modules], no flags: [npm install], then [npm start] with
    [PORT=3001]; the script ends with the code of [npm start]. *)
Example fresh_checkout_run :
  trace fresh_checkout default_args =
    [EvWhich "node"; EvWhich "npm"; EvIsdir "node_modules";
     EvStdout "Installing dependencies (npm install)...";
     EvPopen ["npm"; "install"] (environ fresh_checkout);
     EvExit ["npm"; "install"] 0;
     EvStdout "Starting Booking service on port 3001 (start)...";
     EvPopen ["npm"; "start"] (<["PORT" := "3001"]> (environ fresh_checkout));
     EvExit ["npm"; "start"] 7]
  ∧ launcher_status fresh_checkout default_args = ExitStatus 7.
Proof. split; by vm_compute. Qed.

(** [node_modules] in place, [--dev --port 8080]: no install, [npm run dev]
    with [PORT=8080]. *)
Example installed_dev_run :
  trace installed_host {| dev := true; port := 8080; force_install := false |} =
    [EvWhich "node"; EvWhich "npm"; EvIsdir "node_modules";
     EvStdout "Starting Booking service on port 8080 (dev)...";
     EvPopen ["npm"; "run"; "dev"] (<["PORT" := "8080"]> (environ installed_host));
     EvExit ["npm"; "run"; "dev"] 3].
Proof. by vm_compute. Qed.

(** ** Further facts: names and lines *)

Lemma string_length_append (a t : string) :
  String.length (a +:+ t) = String.length a + String.length t.
Proof. induction a as [|c a IH]; simpl; [done | by rewrite IH]. Qed.

Lemma string_append_cancel_r (a b t : string) : a +:+ t = b +:+ t → a = b.
Proof.
  intros H.
  assert (Hl : String.length a = String.length b).
  { apply (f_equal String.length) in H.
    rewrite !string_length_append in H. lia. }
  revert b H Hl. induction a as [|c a IH]; intros [|d b] H Hl;
    simpl in *; try done.
  injection H as -> H. f_equal. apply IH; [done | lia].
Qed.

Lemma status_line_starts args : ∃ rest, status_line args = "S" +:+ rest.
Proof. unfold status_line. simpl. by eexists. Qed.

Lemma status_line_ne_installing args :
  status_line args ≠ "Installing dependencies (npm install)...".
Proof. destruct (status_line_starts args) as [r ->]. simpl. discriminate. Qed.

Lemma status_line_ne_notice args : status_line args ≠ newline +:+ "Stopping...".
Proof. destruct (status_line_starts args) as [r ->]. simpl. discriminate. Qed.

Lemma notice_ne_installing :
  newline +:+ "Stopping..." ≠ "Installing dependencies (npm install)...".
Proof. discriminate. Qed.

(** X1: [exe] keeps distinct names distinct, on every platform. *)
Theorem exe_distinct (w : World) (a b : string) :
  a ≠ b → exe w a ≠ exe w b.
Proof.
  intros Hab H. apply Hab. unfold exe in H.
  destruct (decide (os_name w = "nt")); [|done].
  by apply string_append_cancel_r in H.
Qed.

Lemma exe_distinct_witness :
  "node" ≠ "npm" ∧ exe windows_host "node" ≠ exe windows_host "npm".
Proof.
  assert (H : "node" ≠ "npm") by discriminate.
  split; [exact H|]. exact (exe_distinct windows_host "node" "npm" H).
Defined.

(** Every start of the service carries the parent's environment with the
    new [PORT]. *)
Lemma service_popen_env w args env :
  EvPopen (service_cmd w args) env ∈ trace w args →
  env = <["PORT" := str (port args)]> (environ w).
Proof.
  pose proof (install_ne_service w args) as Hne.
  run_once w args; intros Hin; in_log Hin; simplify_eq; done.
Qed.

(** ** Further facts: what the script asks of its host *)

(** X2: [os.path.isdir] is consulted only when [--force-install] is
    absent, then once and for [node_modules]; with the flag the file system
    is not looked at. *)
Theorem isdir_probed_unless_forced (w : World) (args : Namespace) :
  is_Some (which w "node") →
  is_Some (which w (exe w "npm")) →
  dir_checks (trace w args)
    = if force_install args then [] else ["node_modules"].
Proof.
  intros [node Hnode] [npm Hnpm].
  run_once w args; simplify_eq; reflexivity.
Qed.

Lemma isdir_probed_unless_forced_witness :
  is_Some (which installed_host "node")
  ∧ is_Some (which installed_host (exe installed_host "npm"))
  ∧ dir_checks
      (trace installed_host
         {| dev := false; port := 3001; force_install := true |}) = [].
Proof.
  assert (H1 : is_Some (which installed_host "node")) by (by eexists).
  assert (H2 : is_Some (which installed_host (exe installed_host "npm")))
    by (by eexists).
  split; [exact H1|]. split; [exact H2|].
  exact (isdir_probed_unless_forced installed_host
           {| dev := false; port := 3001; force_install := true |} H1 H2).
Defined.

(** X3: the children of a run are, in order, an initial part of
    [npm install; service] when an install is due and of [service] alone
    otherwise, and each of them is the package manager under its platform
    name: nothing else is ever started. *)
Theorem spawned_commands (w : World) (args : Namespace) :
  popens (trace w args) `prefix_of`
    (if force_install args || negb (isdir w "node_modules")
     then [install_cmd w; service_cmd w args]
     else [service_cmd w args])
  ∧ ∀ a, a ∈ popens (trace w args) → head a = Some (exe w "npm").
Proof.
  split.
  - run_once w args; cbn [orb negb]; by eexists.
  - intros a. run_once w args; intros Ha; in_log Ha; subst a.
    all: unfold install_cmd, service_cmd; by destruct (dev args).
Qed.

Lemma spawned_commands_witness :
  popens (trace fresh_checkout default_args)
    = [install_cmd fresh_checkout; service_cmd fresh_checkout default_args]
  ∧ install_cmd fresh_checkout ∈ popens (trace fresh_checkout default_args)
  ∧ head (install_cmd fresh_checkout) = Some (exe fresh_checkout "npm").
Proof.
  assert (H1 : install_cmd fresh_checkout
                 ∈ popens (trace fresh_checkout default_args))
    by (apply (bool_decide_unpack _); vm_compute; exact I).
  split; [reflexivity|]. split; [exact H1|].
  exact (proj2 (spawned_commands fresh_checkout default_args) _ H1).
Defined.

(** X4: the script prints an error message of its own (a [print] to
    [sys.stderr], run.py lines 23 and 26) exactly when one of the two
    tools is missing.  What else reaches that stream, the interpreter's
    traceback of an uncaught exception or the output of a child, is not
    an [EvStderr] of the log. *)
Theorem error_message_iff_toolchain_missing (w : World) (args : Namespace) :
  (∃ msg, EvStderr msg ∈ trace w args) ↔
  which w "node" = None ∨ which w (exe w "npm") = None.
Proof.
  run_once w args; split.
  all: try (intros [msg Hin]; in_log Hin; auto; fail).
  all: try (intros [?|?]; simplify_eq; fail).
  all: intros _; eexists; member.
Qed.

(** ** Further facts: errors that are not handled *)

(** X5: an exception out of the wait on [npm install], a Ctrl-C included,
    is not handled: the installer is killed, the exception leaves [main],
    no service is started and the notice of the interrupt handler is not
    printed. *)
Theorem install_errors_propagate (w : World) (args : Namespace) (e : exn) :
  is_Some (which w "node") →
  is_Some (which w (exe w "npm")) →
  force_install args = true ∨ isdir w "node_modules" = false →
  spawn w (install_cmd w) = None →
  wait w (install_cmd w) = Raises e →
  (run w args).1 = Raises e
  ∧ popens (trace w args) = [install_cmd w]
  ∧ [EvPopen (install_cmd w) (environ w); EvKill (install_cmd w)]
      `suffix_of` trace w args
  ∧ EvStdout (newline +:+ "Stopping...") ∉ trace w args.
Proof.
  intros [node Hnode] [npm Hnpm] Hneed Hspawn Hwait.
  pose proof notice_ne_installing as Hnotice.
  run_once w args; simplify_eq.
  all: try (destruct Hneed; discriminate).
  all: repeat split; try done; try ends_with; member.
Qed.

Lemma install_errors_propagate_witness :
  is_Some (which interrupted_install "node")
  ∧ is_Some (which interrupted_install (exe interrupted_install "npm"))
  ∧ (force_install default_args = true
     ∨ isdir interrupted_install "node_modules" = false)
  ∧ spawn interrupted_install (install_cmd interrupted_install) = None
  ∧ wait interrupted_install (install_cmd interrupted_install)
      = Raises KeyboardInterrupt
  ∧ (run interrupted_install default_args).1 = Raises KeyboardInterrupt.
Proof.
  assert (H1 : is_Some (which interrupted_install "node")) by (by eexists).
  assert (H2 : is_Some (which interrupted_install
                          (exe interrupted_install "npm"))) by (by eexists).
  assert (H3 : force_install default_args = true
               ∨ isdir interrupted_install "node_modules" = false)
    by (right; reflexivity).
  assert (H4 : spawn interrupted_install (install_cmd interrupted_install)
               = None) by reflexivity.
  assert (H5 : wait interrupted_install (install_cmd interrupted_install)
               = Raises KeyboardInterrupt) by reflexivity.
  split; [exact H1|]. split; [exact H2|]. split; [exact H3|].
  split; [exact H4|]. split; [exact H5|].
  exact (proj1 (install_errors_propagate interrupted_install default_args
                  KeyboardInterrupt H1 H2 H3 H4 H5)).
Defined.

(** X6: an exception other than [KeyboardInterrupt] raised while the
    service is started or waited for passes through the [try] statement
    unchanged: no notice, no [terminate]. *)
Theorem service_errors_propagate (w : World) (args : Namespace)
    (env : gmap string string) (e : exn) :
  EvPopen (service_cmd w args) env ∈ trace w args →
  spawn w (service_cmd w args) = Some e
  ∨ (spawn w (service_cmd w args) = None
     ∧ wait w (service_cmd w args) = Raises e) →
  e ≠ KeyboardInterrupt →
  (run w args).1 = Raises e
  ∧ terminations (trace w args) = []
  ∧ EvStdout (newline +:+ "Stopping...") ∉ trace w args.
Proof.
  intros Hin Hcause He. revert Hin.
  pose proof (install_ne_service w args) as Hne.
  pose proof notice_ne_installing as Hnotice.
  pose proof (status_line_ne_notice args) as Hstatus.
  destruct Hcause as [Hspawn | [Hspawn Hwait]].
  all: run_once w args; intros Hin; in_log Hin; simplify_eq.
  all: repeat split; try done; member.
Qed.

Lemma service_errors_propagate_witness :
  EvPopen (service_cmd vanished_npm default_args)
      (<["PORT" := "3001"]> (environ vanished_npm))
    ∈ trace vanished_npm default_args
  ∧ spawn vanished_npm (service_cmd vanished_npm default_args)
      = Some (Exception "FileNotFoundError")
  ∧ Exception "FileNotFoundError" ≠ KeyboardInterrupt
  ∧ (run vanished_npm default_args).1 = Raises (Exception "FileNotFoundError").
Proof.
  assert (H1 : EvPopen (service_cmd vanished_npm default_args)
                   (<["PORT" := "3001"]> (environ vanished_npm))
                 ∈ trace vanished_npm default_args)
    by (apply (bool_decide_unpack _); vm_compute; exact I).
  assert (H2 : spawn vanished_npm (service_cmd vanished_npm default_args)
               = Some (Exception "FileNotFoundError")) by reflexivity.
  assert (H3 : Exception "FileNotFoundError" ≠ KeyboardInterrupt)
    by discriminate.
  split; [exact H1|]. split; [exact H2|]. split; [exact H3|].
  exact (proj1 (service_errors_propagate vanished_npm default_args _ _
                  H1 (or_introl H2) H3)).
Defined.

(** X7: what [terminate] raises is swallowed only if it derives from
    [Exception]: a second Ctrl-C (or a [SystemExit]) during [terminate]
    leaves [main], after the notice and the call. *)
Theorem terminate_interrupt_propagates (w : World) (args : Namespace)
    (env : gmap string string) (e : exn) :
  EvPopen (service_cmd w args) env ∈ trace w args →
  spawn w (service_cmd w args) = None →
  wait w (service_cmd w args) = Raises KeyboardInterrupt →
  terminate w (service_cmd w args) = Some e →
  is_Exception e = false →
  (run w args).1 = Raises e
  ∧ [EvPopen (service_cmd w args) env;
     EvStdout (newline +:+ "Stopping...");
     EvTerminate (service_cmd w args)] `suffix_of` trace w args.
Proof.
  intros Hin Hspawn Hwait Hterm He. revert Hin.
  pose proof (install_ne_service w args) as Hne.
  run_once w args; intros Hin; in_log Hin; simplify_eq.
  all: repeat split; try done; ends_with.
Qed.

Lemma terminate_interrupt_propagates_witness :
  EvPopen (service_cmd second_interrupt default_args)
      (<["PORT" := "3001"]> (environ second_interrupt))
    ∈ trace second_interrupt default_args
  ∧ spawn second_interrupt (service_cmd second_interrupt default_args) = None
  ∧ wait second_interrupt (service_cmd second_interrupt default_args)
      = Raises KeyboardInterrupt
  ∧ terminate second_interrupt (service_cmd second_interrupt default_args)
      = Some KeyboardInterrupt
  ∧ is_Exception KeyboardInterrupt = false
  ∧ (run second_interrupt default_args).1 = Raises KeyboardInterrupt.
Proof.
  assert (H1 : EvPopen (service_cmd second_interrupt default_args)
                   (<["PORT" := "3001"]> (environ second_interrupt))
                 ∈ trace second_interrupt default_args)
    by (apply (bool_decide_unpack _); vm_compute; exact I).
  assert (H2 : spawn second_interrupt
                 (service_cmd second_interrupt default_args) = None)
    by reflexivity.
  assert (H3 : wait second_interrupt
                 (service_cmd second_interrupt default_args)
               = Raises KeyboardInterrupt) by reflexivity.
  assert (H4 : terminate second_interrupt
                 (service_cmd second_interrupt default_args)
               = Some KeyboardInterrupt) by reflexivity.
  assert (H5 : is_Exception KeyboardInterrupt = false) by reflexivity.
  split; [exact H1|]. split; [exact H2|]. split; [exact H3|].
  split; [exact H4|]. split; [exact H5|].
  exact (proj1 (terminate_interrupt_propagates second_interrupt default_args
                  _ _ H1 H2 H3 H4 H5)).
Defined.

(** ** Further facts: the order of a run *)

(** X8: when [npm install] exits with 0 the script goes on: the next two
    things it does are to print the status line and to start the service
    with the new [PORT]. *)
Theorem successful_install_continues (w : World) (args : Namespace) :
  EvExit (install_cmd w) 0 ∈ trace w args →
  ∃ i,
    trace w args !! i = Some (EvExit (install_cmd w) 0)
    ∧ trace w args !! S i = Some (EvStdout (status_line args))
    ∧ trace w args !! S (S i)
        = Some (EvPopen (service_cmd w args)
                  (<["PORT" := str (port args)]> (environ w))).
Proof.
  pose proof (install_ne_service w args) as Hne.
  run_once w args; intros Hin; in_log Hin; simplify_eq.
  all: first [ by exists 4 | by exists 5 ].
Qed.

Lemma successful_install_continues_witness :
  EvExit (install_cmd fresh_checkout) 0 ∈ trace fresh_checkout default_args
  ∧ ∃ i,
      trace fresh_checkout default_args !! i
        = Some (EvExit (install_cmd fresh_checkout) 0)
      ∧ trace fresh_checkout default_args !! S i
          = Some (EvStdout (status_line default_args))
      ∧ trace fresh_checkout default_args !! S (S i)
          = Some (EvPopen (service_cmd fresh_checkout default_args)
                    (<["PORT" := str (port default_args)]>
                       (environ fresh_checkout))).
Proof.
  assert (H1 : EvExit (install_cmd fresh_checkout) 0
                 ∈ trace fresh_checkout default_args)
    by (apply (bool_decide_unpack _); vm_compute; exact I).
  split; [exact H1|].
  exact (successful_install_continues fresh_checkout default_args H1).
Defined.

(** X9: the status line and the start of the service go together: the
    line is printed at some position exactly when the service is started
    at the next one. *)
Theorem status_line_announces_service (w : World) (args : Namespace)
    (i : nat) :
  trace w args !! i = Some (EvStdout (status_line args)) ↔
  trace w args !! S i
    = Some (EvPopen (service_cmd w args)
              (<["PORT" := str (port args)]> (environ w))).
Proof.
  pose proof (install_ne_service w args) as Hne.
  pose proof (status_line_ne_installing args) as Hinst.
  pose proof (status_line_ne_notice args) as Hnotice.
  run_once w args; split; intros Hix; at_index Hix i; simplify_eq; done.
Qed.

(** X10: the notice of the interrupt handler is printed exactly when the
    service step was reached and a [KeyboardInterrupt] came out of its
    [Popen] or out of its [wait]. *)
Theorem notice_iff_interrupted (w : World) (args : Namespace) :
  EvStdout (newline +:+ "Stopping...") ∈ trace w args ↔
  (∃ env, EvPopen (service_cmd w args) env ∈ trace w args)
  ∧ (spawn w (service_cmd w args) = Some KeyboardInterrupt
     ∨ (spawn w (service_cmd w args) = None
        ∧ wait w (service_cmd w args) = Raises KeyboardInterrupt)).
Proof.
  pose proof (install_ne_service w args) as Hne.
  pose proof notice_ne_installing as Hinst.
  pose proof (status_line_ne_notice args) as Hnotice.
  run_once w args; split.
  all: try (intros Hin; in_log Hin; simplify_eq; fail).
  all: try (intros [[env Hin] Hc]; in_log Hin; simplify_eq;
            destruct Hc as [?|[? ?]]; simplify_eq; fail).
  all: try (intros _; member).
  all: intros _; split; [eexists; member | auto].
Qed.

(** X11: [terminate] is called at most once, on the service child only,
    and only on a child that was started and whose [wait] was interrupted:
    the installer is never terminated by the handler. *)
Theorem terminate_only_started_service (w : World) (args : Namespace)
    (a : list string) :
  a ∈ terminations (trace w args) →
  a = service_cmd w args
  ∧ terminations (trace w args) = [service_cmd w args]
  ∧ spawn w (service_cmd w args) = None
  ∧ wait w (service_cmd w args) = Raises KeyboardInterrupt.
Proof.
  run_once w args; intros Hin; in_log Hin; simplify_eq; done.
Qed.

Lemma terminate_only_started_service_witness :
  service_cmd windows_host default_args
    ∈ terminations (trace windows_host default_args)
  ∧ terminations (trace windows_host default_args)
      = [service_cmd windows_host default_args].
Proof.
  assert (H1 : service_cmd windows_host default_args
                 ∈ terminations (trace windows_host default_args))
    by (apply (bool_decide_unpack _); vm_compute; exact I).
  split; [exact H1|].
  exact (proj1 (proj2 (terminate_only_started_service windows_host
                         default_args _ H1))).
Defined.

(** X12: [main] returns only through the interrupt handler: every run
    that is not interrupted ends in an exception, [SystemExit] for the
    exits the script takes itself. *)
Theorem returns_only_after_interrupt (w : World) (args : Namespace) :
  (run w args).1 = Returns tt →
  EvStdout (newline +:+ "Stopping...") ∈ trace w args
  ∧ (spawn w (service_cmd w args) = Some KeyboardInterrupt
     ∨ wait w (service_cmd w args) = Raises KeyboardInterrupt).
Proof.
  run_once w args; intros Hret; simplify_eq.
  all: split; [member | auto].
Qed.

Lemma returns_only_after_interrupt_witness :
  (run interrupted_spawn default_args).1 = Returns tt
  ∧ EvStdout (newline +:+ "Stopping...") ∈ trace interrupted_spawn default_args.
Proof.
  assert (H1 : (run interrupted_spawn default_args).1 = Returns tt)
    by reflexivity.
  split; [exact H1|].
  exact (proj1 (returns_only_after_interrupt interrupted_spawn default_args H1)).
Defined.

(** X13: the environment of the service child determines the port: two
    runs on one host whose service children get the same environment were
    given the same [--port]. *)
Theorem service_environment_determines_port (w : World) (a1 a2 : Namespace)
    (env : gmap string string) :
  EvPopen (service_cmd w a1) env ∈ trace w a1 →
  EvPopen (service_cmd w a2) env ∈ trace w a2 →
  port a1 = port a2.
Proof.
  intros H1 H2.
  apply service_popen_env in H1. apply service_popen_env in H2.
  apply str_inj.
  assert (env !! "PORT" = Some (str (port a1))) as E1
    by (rewrite H1; apply lookup_insert_eq).
  assert (env !! "PORT" = Some (str (port a2))) as E2
    by (rewrite H2; apply lookup_insert_eq).
  congruence.
Qed.

Lemma service_environment_determines_port_witness :
  EvPopen (service_cmd installed_host default_args)
      (<["PORT" := "3001"]> (environ installed_host))
    ∈ trace installed_host default_args
  ∧ EvPopen
      (service_cmd installed_host
         {| dev := false; port := 3001; force_install := true |})
      (<["PORT" := "3001"]> (environ installed_host))
    ∈ trace installed_host
        {| dev := false; port := 3001; force_install := true |}
  ∧ port default_args
      = port {| dev := false; port := 3001; force_install := true |}.
Proof.
  assert (H1 : EvPopen (service_cmd installed_host default_args)
                   (<["PORT" := "3001"]> (environ installed_host))
                 ∈ trace installed_host default_args)
    by (apply (bool_decide_unpack _); vm_compute; exact I).
  assert (H2 : EvPopen
                 (service_cmd installed_host
                    {| dev := false; port := 3001; force_install := true |})
                 (<["PORT" := "3001"]> (environ installed_host))
                 ∈ trace installed_host
                     {| dev := false; port := 3001; force_install := true |})
    by (apply (bool_decide_unpack _); vm_compute; exact I).
  split; [exact H1|]. split; [exact H2|].
  exact (service_environment_determines_port installed_host _ _ _ H1 H2).
Defined.

(** X14: [exe] returns the name it was given exactly off Windows; on
    Windows the result is never the bare name. *)
Theorem exe_identity_iff (w : World) (name : string) :
  exe w name = name ↔ os_name w ≠ "nt".
Proof.
  unfold exe. destruct (decide (os_name w = "nt")) as [Hnt|Hnt].
  - split; [|done]. intros H. apply (f_equal String.length) in H.
    rewrite string_length_append in H. simpl in H. lia.
  - done.
Qed.

(** ** Further facts: the exit status *)

(** X15: off Windows, when the installer or the service is reaped with a
    negative return code [-sig] ([subprocess]'s report of a death by signal
    [sig]), the script still ends through [sys.exit(-sig)], and the status
    its parent sees is [256 - sig], not [-sig]. *)
Theorem signal_death_status (w : World) (args : Namespace) (sig : Z) :
  os_name w ≠ "nt" →
  (1 ≤ sig ≤ 64)%Z →
  EvExit (install_cmd w) (- sig) ∈ trace w args
  ∨ EvExit (service_cmd w args) (- sig) ∈ trace w args →
  (run w args).1 = Raises (SystemExit (Some (- sig)%Z))
  ∧ launcher_status w args = ExitStatus (256 - sig).
Proof.
  intros Hos Hsig Hin.
  assert ((run w args).1 = Raises (SystemExit (Some (- sig)%Z))) as Hrun.
  { destruct Hin as [Hin|Hin].
    - apply install_failure_raises; [done | lia].
    - by apply service_exit_raises. }
  split; [done|].
  unfold launcher_status. rewrite Hrun. cbn [exit_status].
  rewrite exit_code_posix by (done || lia).
  f_equal. symmetry. apply (Z.mod_unique_pos _ _ (-1)); lia.
Qed.

Lemma signal_death_status_witness :
  os_name killed_service ≠ "nt"
  ∧ (1 ≤ 15 ≤ 64)%Z
  ∧ EvExit (service_cmd killed_service default_args) (- 15)
      ∈ trace killed_service default_args
  ∧ launcher_status killed_service default_args = ExitStatus 241.
Proof.
  assert (H1 : os_name killed_service ≠ "nt") by discriminate.
  assert (H2 : (1 ≤ 15 ≤ 64)%Z) by lia.
  assert (H3 : EvExit (service_cmd killed_service default_args) (- 15)
                 ∈ trace killed_service default_args)
    by (apply (bool_decide_unpack _); vm_compute; exact I).
  split; [exact H1|]. split; [exact H2|]. split; [exact H3|].
  exact (proj2 (signal_death_status killed_service default_args 15 H1 H2
                  (or_intror H3))).
Defined.
